(** * A typed RPC server with placeholder handlers

    Shallow embedding of the server: the schemas and the router
    (server/src/schema.ts and server/src/index.ts) and the three handlers
    (server/src/handlers/login.ts, get_user.ts, create_user.ts).

    - A JavaScript string is a [string]; each character stands for one code
      unit, so [String.length] is the [.length] that the schema checks and
      [String.eqb] is [===] on strings.
    - Identifiers ([User.id], [userId]) are integer-valued numbers, held as
      [Z].  The one place where the code computes with a fractional number,
      [Math.floor(Math.random() * 1000)], is modelled on IEEE 754 binary64
      with the Standard Library's [SpecFloat].
    - A [Date] is its time value: milliseconds since the epoch, a [Z].
    - [Math.random()] and [new Date()] read the environment.  The [World]
      carries both sources and how far each has been read; an [async]
      function is a state-passing function over the [World] that settles to
      an [Outcome]. *)

From Stdlib Require Import ZArith Lia Bool Ascii String List.
From Stdlib Require Import Floats.SpecFloat.
From stdpp Require Import base option gmap strings.

Set Warnings "-register-all".

Open Scope Z_scope.
Open Scope string_scope.

(** ** The environment *)

Record World := {
  entropy : nat -> spec_float;   (* what successive Math.random() calls return *)
  draws : nat;                   (* how many of them were made *)
  wall_clock : nat -> Z;         (* what successive readings of the clock return *)
  readings : nat                 (* how many of them were made *)
}.

(** ** Schemas (server/src/schema.ts): the inferred types *)

Definition Date := Z.

Module User.
Record t := mk {
  id : Z;
  username : string;
  password_hash : string;
  created_at : Date
}.
End User.

Module LoginInput.
Record t := mk { username : string; password : string }.
End LoginInput.

Module UserInfo.
Record t := mk { id : Z; username : string }.
End UserInfo.

Module LoginResponse.
Record t := mk {
  success : bool;
  message : string;
  user : option UserInfo.t     (* [None]: the property is absent *)
}.
End LoginResponse.

Module CreateUserInput.
Record t := mk { username : string; password : string }.
End CreateUserInput.

(** ** Validation issues and the error a procedure call can be rejected with *)

Inductive ParsedType :=
| t_undefined | t_null | t_boolean | t_number | t_string | t_array | t_object.

Inductive ZodIssue :=
| invalid_type (path : list string) (expected received : ParsedType)
| too_small (path : list string) (minimum : nat) (message : string).

Inductive RpcError :=
| ValidationError (issues : list ZodIssue).

(** ** Promises: an async function over the world *)

Inductive Outcome (A : Type) :=
| Fulfilled (value : A)
| Rejected (error : RpcError).
Arguments Fulfilled {A} value.
Arguments Rejected {A} error.

Definition Async (A : Type) : Type := World -> Outcome A * World.

#[global] Instance Async_ret : MRet Async :=
  fun A (a : A) w => (Fulfilled a, w).

#[global] Instance Async_bind : MBind Async :=
  fun A B (k : A -> Async B) (m : Async A) w =>
    match m w with
    | (Fulfilled a, w') => k a w'
    | (Rejected e, w') => (Rejected e, w')
    end.

Definition throw {A : Type} (e : RpcError) : Async A :=
  fun w => (Rejected e, w).

(** [Math.random()] *)
Definition Math_random : Async spec_float :=
  fun w => (Fulfilled (entropy w (draws w)),
            {| entropy := entropy w; draws := S (draws w);
               wall_clock := wall_clock w; readings := readings w |}).

(** [new Date()] *)
Definition Date_new : Async Date :=
  fun w => (Fulfilled (wall_clock w (readings w)),
            {| entropy := entropy w; draws := draws w;
               wall_clock := wall_clock w; readings := S (readings w) |}).

(** ** Numbers: binary64 *)

Definition prec : Z := 53.
Definition emax : Z := 1024.

Definition Number_of_Z (z : Z) : spec_float := binary_normalize prec emax z 0 false.

(** The literal [1000]. *)
Definition thousand : spec_float := Number_of_Z 1000.

(** The literal [1]. *)
Definition one : spec_float := Number_of_Z 1.

(** [x * y] on numbers. *)
Definition Number_mul (x y : spec_float) : spec_float := SFmul prec emax x y.

(** [Math.floor(x)], as the integer it denotes.  A finite number [m * 2^e]
    is floored by an arithmetic shift ([Z.shiftl] by a negative amount shifts
    right, rounding towards minus infinity).  [NaN] and the infinities, which
    [Math.floor] returns as they are, denote no integer; [floor_is_integer]
    tells them apart. *)
Definition Math_floor (x : spec_float) : Z :=
  match x with
  | S754_finite s m e => Z.shiftl (cond_Zopp s (Zpos m)) e
  | _ => 0
  end.

Definition floor_is_integer (x : spec_float) : bool :=
  match x with
  | S754_finite _ _ _ | S754_zero _ => true
  | _ => false
  end.

(** What the language promises of a draw: a number with positive sign,
    greater than or equal to 0 and less than 1. *)
Definition unit_interval (x : spec_float) : bool :=
  match x with
  | S754_zero s => negb s
  | S754_finite s m e =>
      negb s && bounded prec emax m e && SFltb x one
  | _ => false
  end.

(** ** Handlers *)

(** server/src/handlers/login.ts *)
Definition DEMO_USERNAME : string := "demo".
Definition DEMO_PASSWORD : string := "demo123".

Definition login (input : LoginInput.t) : Async LoginResponse.t :=
  if String.eqb (LoginInput.username input) DEMO_USERNAME
     && String.eqb (LoginInput.password input) DEMO_PASSWORD
  then
    mret {| LoginResponse.success := true;
            LoginResponse.message := "Login successful";
            LoginResponse.user :=
              Some {| UserInfo.id := 1; UserInfo.username := DEMO_USERNAME |} |}
  else
    mret {| LoginResponse.success := false;
            LoginResponse.message := "Invalid username or password";
            LoginResponse.user := None |}.

(** server/src/handlers/get_user.ts; [None] is [null]. *)
Definition getUser (userId : Z) : Async (option User.t) :=
  if Z.eqb userId 1 then
    created ← Date_new;
    mret (Some {| User.id := 1;
                  User.username := "demo";
                  User.password_hash := "$2b$10$demo_hash";
                  User.created_at := created |})
  else
    mret None.

(** server/src/handlers/create_user.ts *)
Definition createUser (input : CreateUserInput.t) : Async User.t :=
  r ← Math_random;
  created ← Date_new;
  mret {| User.id := Math_floor (Number_mul r thousand);
          User.username := CreateUserInput.username input;
          User.password_hash := "$2b$10$placeholder_hash";
          User.created_at := created |}.


(** ** Dates: the time functions of the language and [toISOString] *)

Definition msPerDay : Z := 86400000.
Definition msPerHour : Z := 3600000.
Definition msPerMinute : Z := 60000.
Definition msPerSecond : Z := 1000.

Definition Day (t : Z) : Z := t / msPerDay.
Definition TimeWithinDay (t : Z) : Z := t mod msPerDay.

Definition DaysInYear (y : Z) : Z :=
  if negb (Z.eqb (y mod 4) 0) then 365
  else if negb (Z.eqb (y mod 100) 0) then 366
  else if negb (Z.eqb (y mod 400) 0) then 365
  else 366.

Definition DayFromYear (y : Z) : Z :=
  365 * (y - 1970) + (y - 1969) / 4 - (y - 1901) / 100 + (y - 1601) / 400.

Definition TimeFromYear (y : Z) : Z := msPerDay * DayFromYear y.

(** The largest [y] with [TimeFromYear y <= t]: the mean year has
    146097/400 days, which places [y] within one year of the estimate
    ([YearFromTime_largest] proves that this is the year so described). *)
Definition YearFromTime (t : Z) : Z :=
  let d := Day t in
  let y := 1970 + (d * 400) / 146097 in
  if Z.leb (DayFromYear (y + 1)) d then y + 1
  else if Z.leb (DayFromYear y) d then y
  else y - 1.

Definition InLeapYear (t : Z) : Z :=
  if Z.eqb (DaysInYear (YearFromTime t)) 365 then 0 else 1.

Definition DayWithinYear (t : Z) : Z := Day t - DayFromYear (YearFromTime t).

Definition MonthFromTime (t : Z) : Z :=
  let d := DayWithinYear t in
  let l := InLeapYear t in
  if Z.ltb d 31 then 0
  else if Z.ltb d (59 + l) then 1
  else if Z.ltb d (90 + l) then 2
  else if Z.ltb d (120 + l) then 3
  else if Z.ltb d (151 + l) then 4
  else if Z.ltb d (181 + l) then 5
  else if Z.ltb d (212 + l) then 6
  else if Z.ltb d (243 + l) then 7
  else if Z.ltb d (273 + l) then 8
  else if Z.ltb d (304 + l) then 9
  else if Z.ltb d (334 + l) then 10
  else 11.

Definition DateFromTime (t : Z) : Z :=
  let d := DayWithinYear t in
  let l := InLeapYear t in
  match MonthFromTime t with
  | 0 => d + 1
  | 1 => d - 30
  | 2 => d - 58 - l
  | 3 => d - 89 - l
  | 4 => d - 119 - l
  | 5 => d - 150 - l
  | 6 => d - 180 - l
  | 7 => d - 211 - l
  | 8 => d - 242 - l
  | 9 => d - 272 - l
  | 10 => d - 303 - l
  | _ => d - 333 - l
  end.

Definition HourFromTime (t : Z) : Z := (t / msPerHour) mod 24.
Definition MinFromTime (t : Z) : Z := (t / msPerMinute) mod 60.
Definition SecFromTime (t : Z) : Z := (t / msPerSecond) mod 60.
Definition msFromTime (t : Z) : Z := t mod msPerSecond.

(** Decimal digits, most significant first, zero-padded to a fixed width. *)
Definition digit (n : Z) : ascii := Ascii.ascii_of_N (48 + Z.to_N (n mod 10)).

Fixpoint padded (width : nat) (n : Z) : string :=
  match width with
  | O => ""
  | S w => padded w (n / 10) +:+ String (digit n) ""
  end.

(** The year: four digits from 0 to 9999, otherwise a sign and six digits. *)
Definition year_string (y : Z) : string :=
  if Z.leb 0 y && Z.leb y 9999 then padded 4 y
  else if Z.leb 0 y then "+" +:+ padded 6 y
  else "-" +:+ padded 6 (- y).

(** [Date.prototype.toISOString]: YYYY-MM-DDTHH:mm:ss.sssZ *)
Definition toISOString (t : Date) : string :=
  year_string (YearFromTime t) +:+ "-" +:+
  padded 2 (MonthFromTime t + 1) +:+ "-" +:+
  padded 2 (DateFromTime t) +:+ "T" +:+
  padded 2 (HourFromTime t) +:+ ":" +:+
  padded 2 (MinFromTime t) +:+ ":" +:+
  padded 2 (SecFromTime t) +:+ "." +:+
  padded 3 (msFromTime t) +:+ "Z".

(** ** Values a call can carry, and how the schemas read them *)

Inductive JsValue :=
| JsUndefined
| JsNull
| JsBoolean (b : bool)
| JsNumber (n : Z)
| JsString (s : string)
| JsArray (items : list JsValue)
| JsObject (props : gmap string JsValue).

Definition getParsedType (data : JsValue) : ParsedType :=
  match data with
  | JsUndefined => t_undefined
  | JsNull => t_null
  | JsBoolean _ => t_boolean
  | JsNumber _ => t_number
  | JsString _ => t_string
  | JsArray _ => t_array
  | JsObject _ => t_object
  end.

(** The outcome of parsing: the issues found, or the typed value. *)
Definition Parsed (A : Type) : Type := list ZodIssue + A.

Definition issues_of {A : Type} (r : Parsed A) : list ZodIssue :=
  match r with
  | inl issues => issues
  | inr _ => []
  end.

(** [z.string().min(minimum, message)] applied to the data found at [path]:
    anything but a string is an [invalid_type]; a string shorter than
    [minimum] is [too_small]. *)
Definition z_string_min (minimum : nat) (message : string)
    (path : list string) (data : JsValue) : Parsed string :=
  match data with
  | JsString s =>
      if Nat.ltb (String.length s) minimum
      then inl [too_small path minimum message]
      else inr s
  | _ => inl [invalid_type path t_string (getParsedType data)]
  end.

(** [z.number()] *)
Definition z_number (path : list string) (data : JsValue) : Parsed Z :=
  match data with
  | JsNumber n => inr n
  | _ => inl [invalid_type path t_number (getParsedType data)]
  end.

(** [data[key]]: a property that is not there reads as [undefined]. *)
Definition property (props : gmap string JsValue) (key : string) : JsValue :=
  default JsUndefined (props !! key).

(** [z.object({ k1: s1, k2: s2 })]: the data must be an object; every key of
    the shape is parsed and the issues of all of them are reported together;
    properties outside the shape are dropped. *)
Definition z_object2 {A B C : Type} (make : A -> B -> C)
    (k1 : string) (s1 : list string -> JsValue -> Parsed A)
    (k2 : string) (s2 : list string -> JsValue -> Parsed B)
    (data : JsValue) : Parsed C :=
  match data with
  | JsObject props =>
      match s1 [k1] (property props k1), s2 [k2] (property props k2) with
      | inr a, inr b => inr (make a b)
      | r1, r2 => inl (issues_of r1 ++ issues_of r2)%list
      end
  | _ => inl [invalid_type [] t_object (getParsedType data)]
  end.

(** [z.object({ k: s })] *)
Definition z_object1 {A : Type} (k : string)
    (s : list string -> JsValue -> Parsed A) (data : JsValue) : Parsed A :=
  match data with
  | JsObject props => s [k] (property props k)
  | _ => inl [invalid_type [] t_object (getParsedType data)]
  end.

Definition loginInputSchema : JsValue -> Parsed LoginInput.t :=
  z_object2 LoginInput.mk
    "username" (z_string_min 1 "Username is required")
    "password" (z_string_min 1 "Password is required").

Definition createUserInputSchema : JsValue -> Parsed CreateUserInput.t :=
  z_object2 CreateUserInput.mk
    "username" (z_string_min 1 "Username is required")
    "password" (z_string_min 6 "Password must be at least 6 characters").

(** ** The router (server/src/index.ts) *)

(** [publicProcedure.input(schema).query(resolver)] (or [.mutation]): the raw
    input is parsed first; issues reject the call, otherwise the resolver
    runs on the typed input. *)
Definition procedure {I O : Type} (schema : JsValue -> Parsed I)
    (resolver : I -> Async O) (rawInput : JsValue) : Async O :=
  match schema rawInput with
  | inl issues => throw (ValidationError issues)
  | inr input => resolver input
  end.

Module HealthStatus.
Record t := mk { status : string; timestamp : string }.
End HealthStatus.

Module appRouter.

(** No input parser: whatever the call carries is ignored. *)
Definition healthcheck (rawInput : JsValue) : Async HealthStatus.t :=
  now ← Date_new;
  mret {| HealthStatus.status := "ok";
          HealthStatus.timestamp := toISOString now |}.

Definition login : JsValue -> Async LoginResponse.t :=
  procedure loginInputSchema login.

Definition getUser : JsValue -> Async (option User.t) :=
  procedure (z_object1 "userId" z_number) getUser.

Definition createUser : JsValue -> Async User.t :=
  procedure createUserInputSchema createUser.

End appRouter.

(** [n] calls of the same procedure, one after the other; a rejected call
    ends the run. *)
Fixpoint repeatedly {A : Type} (call : Async A) (n : nat) : Async (list A) :=
  match n with
  | O => mret []
  | S k => r ← call; rs ← repeatedly call k; mret (r :: rs)
  end.

(** Timestamps as the text compares them: code unit by code unit. *)
Fixpoint non_decreasing (l : list string) : bool :=
  match l with
  | a :: (b :: _) as rest => String.leb a b && non_decreasing rest
  | _ => true
  end.

(** A world to run examples in: every draw is 0, the clock advances by one
    millisecond per reading from 2023-11-14T22:13:20Z. *)
Definition sample_world : World :=
  {| entropy := fun _ => S754_zero false; draws := 0;
     wall_clock := fun k => 1700000000000 + Z.of_nat k; readings := 0 |}.

(** ** Auxiliary definitions for the properties below *)

(** The state of a right shift of the mantissa [M] by [k] bits: what is left
    of the mantissa, the bits shifted out ([rest]), and the round bit, which is
    set only when the bits shifted out amount to at least half a unit. *)
Definition shifted (M k : Z) (r : shr_record) : Prop :=
  0 <= shr_m r
  /\ exists rest, M = shr_m r * 2 ^ k + rest
                 /\ 0 <= rest < 2 ^ k
                 /\ (shr_r r = true -> 2 ^ k <= 2 * rest).

(** Where in the input an issue was found. *)
Definition issue_path (i : ZodIssue) : list string :=
  match i with
  | invalid_type path _ _ => path
  | too_small path _ _ => path
  end.

(** The fields that [toISOString] prints, in the order it prints them. *)
Definition time_fields (t : Z) : list Z :=
  [YearFromTime t; MonthFromTime t + 1; DateFromTime t;
   HourFromTime t; MinFromTime t; SecFromTime t; msFromTime t].

(** Lists of numbers compared position by position. *)
Fixpoint lex_compare (a b : list Z) : comparison :=
  match a, b with
  | x :: a', y :: b' =>
      match Z.compare x y with
      | Eq => lex_compare a' b'
      | c => c
      end
  | _, _ => Eq
  end.

(** A pattern for a text: [d] in the pattern stands for any decimal digit,
    every other character for itself. *)
Definition is_digit (c : ascii) : bool :=
  N.leb 48 (N_of_ascii c) && N.leb (N_of_ascii c) 57.

Fixpoint matches (pattern s : string) : bool :=
  match pattern, s with
  | EmptyString, EmptyString => true
  | String p pattern', String c s' =>
      (if Ascii.eqb p "d" then is_digit c else Ascii.eqb p c) && matches pattern' s'
  | _, _ => false
  end.

(** The world after [n] more readings of the clock. *)
Definition after_readings (w : World) (n : nat) : World :=
  {| entropy := entropy w; draws := draws w;
     wall_clock := wall_clock w; readings := readings w + n |}.

(** * Properties *)

(** ** login *)

Lemma demo_credentials (input : LoginInput.t) :
  String.eqb (LoginInput.username input) DEMO_USERNAME
    && String.eqb (LoginInput.password input) DEMO_PASSWORD = true
  <-> (LoginInput.username input, LoginInput.password input) = ("demo", "demo123").
Proof.
  unfold DEMO_USERNAME, DEMO_PASSWORD.
  rewrite andb_true_iff, !String.eqb_eq.
  split.
  - intros [-> ->]. reflexivity.
  - intros [= -> ->]. split; reflexivity.
Qed.

Lemma login_rejects (input : LoginInput.t) (w : World) :
  (LoginInput.username input, LoginInput.password input) <> ("demo", "demo123") ->
  login input w =
    (Fulfilled {| LoginResponse.success := false;
                  LoginResponse.message := "Invalid username or password";
                  LoginResponse.user := None |}, w).
Proof.
  intros Hne. unfold login.
  destruct (String.eqb (LoginInput.username input) DEMO_USERNAME
              && String.eqb (LoginInput.password input) DEMO_PASSWORD) eqn:E.
  - apply demo_credentials in E. contradiction.
  - reflexivity.
Qed.

(** C1. With username "demo" and password "demo123" the login handler
    answers success = true and a user with id 1 and username "demo". *)
Theorem login_demo_succeeds (input : LoginInput.t) (w : World) :
  LoginInput.username input = "demo" ->
  LoginInput.password input = "demo123" ->
  exists r u,
    login input w = (Fulfilled r, w)
    /\ LoginResponse.success r = true
    /\ LoginResponse.user r = Some u
    /\ UserInfo.id u = 1
    /\ UserInfo.username u = "demo".
Proof.
  intros Hu Hp. unfold login. rewrite Hu, Hp. cbn.
  eexists; eexists. repeat split; reflexivity.
Qed.

Lemma login_demo_succeeds_witness :
  exists r u,
    login (LoginInput.mk "demo" "demo123") sample_world = (Fulfilled r, sample_world)
    /\ LoginResponse.success r = true
    /\ LoginResponse.user r = Some u
    /\ UserInfo.id u = 1
    /\ UserInfo.username u = "demo".
Proof.
  apply (login_demo_succeeds (LoginInput.mk "demo" "demo123") sample_world);
    reflexivity.
Defined.

(** C2. With any other pair of credentials the login handler answers
    success = false and leaves the user property out. *)
Theorem login_other_fails (input : LoginInput.t) (w : World) :
  (LoginInput.username input, LoginInput.password input) <> ("demo", "demo123") ->
  exists r,
    login input w = (Fulfilled r, w)
    /\ LoginResponse.success r = false
    /\ LoginResponse.user r = None.
Proof.
  intros Hne. eexists. split; [apply login_rejects; exact Hne|].
  split; reflexivity.
Qed.

Lemma login_other_fails_witness :
  exists r,
    login (LoginInput.mk "demo" "demo124") sample_world = (Fulfilled r, sample_world)
    /\ LoginResponse.success r = false
    /\ LoginResponse.user r = None.
Proof.
  apply (login_other_fails (LoginInput.mk "demo" "demo124") sample_world).
  simpl. discriminate.
Defined.

(** C4. Two logins that both fail get the same response, whatever was wrong
    in each: the same generic message, and nothing else to tell them apart. *)
Theorem login_failures_indistinguishable (a b : LoginInput.t) (wa wb : World) :
  (LoginInput.username a, LoginInput.password a) <> ("demo", "demo123") ->
  (LoginInput.username b, LoginInput.password b) <> ("demo", "demo123") ->
  exists r,
    login a wa = (Fulfilled r, wa)
    /\ login b wb = (Fulfilled r, wb)
    /\ LoginResponse.message r = "Invalid username or password".
Proof.
  intros Ha Hb. eexists.
  split; [apply login_rejects; exact Ha|].
  split; [apply login_rejects; exact Hb|].
  reflexivity.
Qed.

Lemma login_failures_indistinguishable_witness :
  exists r,
    login (LoginInput.mk "nobody" "demo123") sample_world = (Fulfilled r, sample_world)
    /\ login (LoginInput.mk "demo" "wrong") sample_world = (Fulfilled r, sample_world)
    /\ LoginResponse.message r = "Invalid username or password".
Proof.
  apply (login_failures_indistinguishable
           (LoginInput.mk "nobody" "demo123") (LoginInput.mk "demo" "wrong")
           sample_world sample_world); simpl; discriminate.
Defined.

(** C8. In every response of the login handler the user property is present
    exactly when success is true. *)
Theorem login_user_iff_success (input : LoginInput.t) (w : World) :
  exists r,
    login input w = (Fulfilled r, w)
    /\ (is_Some (LoginResponse.user r) <-> LoginResponse.success r = true).
Proof.
  unfold login.
  destruct (String.eqb (LoginInput.username input) DEMO_USERNAME
              && String.eqb (LoginInput.password input) DEMO_PASSWORD);
    eexists; (split; [reflexivity|]); cbn; split.
  - reflexivity.
  - intros _. eexists. reflexivity.
  - intros [u Hu]. discriminate Hu.
  - discriminate.
Qed.

(** ** getUser *)

(** C5. getUser 1 settles to the demo user (id 1, username "demo"); for any
    other integer it settles to null: a fulfilled promise, not a rejected
    one, and nothing of the world is read. *)
Theorem getUser_demo_or_null (w : World) :
  (exists u w',
      getUser 1 w = (Fulfilled (Some u), w')
      /\ User.id u = 1
      /\ User.username u = "demo")
  /\ (forall userId : Z, userId <> 1 -> getUser userId w = (Fulfilled None, w)).
Proof.
  split.
  - eexists; eexists. repeat split; reflexivity.
  - intros userId Hne. unfold getUser.
    destruct (Z.eqb_spec userId 1) as [->|_]; [contradiction|reflexivity].
Qed.

Lemma getUser_demo_or_null_witness :
  getUser 2 sample_world = (Fulfilled None, sample_world).
Proof.
  apply (proj2 (getUser_demo_or_null sample_world) 2). lia.
Defined.

(** ** createUser *)

Lemma createUser_result (input : CreateUserInput.t) (w : World) :
  exists w',
    createUser input w =
      (Fulfilled {| User.id := Math_floor (Number_mul (entropy w (draws w)) thousand);
                    User.username := CreateUserInput.username input;
                    User.password_hash := "$2b$10$placeholder_hash";
                    User.created_at := wall_clock w (readings w) |}, w').
Proof. eexists. reflexivity. Qed.

(** C3, as the specification states it, fails where the password is the
    placeholder text itself: a valid input (the password has 23 characters)
    for which the returned password_hash is the plaintext password. *)
Lemma createUser_hash_is_password :
  let input := CreateUserInput.mk "alice" "$2b$10$placeholder_hash" in
  (1 <= String.length (CreateUserInput.username input))%nat
  /\ (6 <= String.length (CreateUserInput.password input))%nat
  /\ exists u w',
       createUser input sample_world = (Fulfilled u, w')
       /\ User.password_hash u = CreateUserInput.password input.
Proof.
  cbn zeta. split; [cbn; lia|]. split; [cbn; lia|].
  eexists; eexists. split; reflexivity.
Qed.

(** C3, amended. createUser settles for every input, to a User with the
    input's username; its password_hash differs from the plaintext password
    whenever the password is not the placeholder text. *)
Theorem createUser_username_and_hash (input : CreateUserInput.t) (w : World) :
  CreateUserInput.password input <> "$2b$10$placeholder_hash" ->
  exists u w',
    createUser input w = (Fulfilled u, w')
    /\ User.username u = CreateUserInput.username input
    /\ User.password_hash u <> CreateUserInput.password input.
Proof.
  intros Hne. destruct (createUser_result input w) as [w' E].
  eexists; eexists. split; [exact E|]. cbn. split; [reflexivity|].
  intros Heq. apply Hne. symmetry. exact Heq.
Qed.

Lemma createUser_username_and_hash_witness :
  exists u w',
    createUser (CreateUserInput.mk "alice" "secret1") sample_world = (Fulfilled u, w')
    /\ User.username u = "alice"
    /\ User.password_hash u <> "secret1".
Proof.
  apply (createUser_username_and_hash (CreateUserInput.mk "alice" "secret1") sample_world).
  simpl. discriminate.
Defined.

(** ** Validation at the router *)

Lemma property_lookup (props : gmap string JsValue) (key : string) (v : JsValue) :
  props !! key = Some v -> property props key = v.
Proof. intros H. unfold property. rewrite H. reflexivity. Qed.

(** A procedure whose schema finds issues is rejected with them, whatever its
    resolver is: the resolver has no part in the outcome and the world is
    left as it was. *)
Lemma procedure_rejects {I O : Type} (schema : JsValue -> Parsed I)
    (resolver : I -> Async O) (rawInput : JsValue) (issues : list ZodIssue) (w : World) :
  schema rawInput = inl issues ->
  procedure schema resolver rawInput w = (Rejected (ValidationError issues), w).
Proof. intros H. unfold procedure. rewrite H. reflexivity. Qed.

Lemma procedure_accepts {I O : Type} (schema : JsValue -> Parsed I)
    (resolver : I -> Async O) (rawInput : JsValue) (input : I) (w : World) :
  schema rawInput = inr input ->
  procedure schema resolver rawInput w = resolver input w.
Proof. intros H. unfold procedure. rewrite H. reflexivity. Qed.

Lemma z_string_min_short (minimum : nat) (message : string) (path : list string)
    (s : string) :
  (String.length s < minimum)%nat ->
  z_string_min minimum message path (JsString s) = inl [too_small path minimum message].
Proof.
  intros H. unfold z_string_min.
  destruct (Nat.ltb_spec (String.length s) minimum); [reflexivity|lia].
Qed.

Lemma z_string_min_long (minimum : nat) (message : string) (path : list string)
    (s : string) :
  (minimum <= String.length s)%nat ->
  z_string_min minimum message path (JsString s) = inr s.
Proof.
  intros H. unfold z_string_min.
  destruct (Nat.ltb_spec (String.length s) minimum); [lia|reflexivity].
Qed.

Lemma nonempty_length (s : string) : s <> "" <-> (1 <= String.length s)%nat.
Proof.
  destruct s; cbn; split; try lia; try congruence.
Qed.

(** C6. A call of createUser whose password has fewer than 6 characters is
    rejected with a ValidationError that reports the password as too small;
    the same holds with any resolver in the handler's place, and the world is
    unchanged, so the handler did not run. *)
Theorem createUser_short_password_rejected
    (props : gmap string JsValue) (password : string) (w : World) :
  props !! "password" = Some (JsString password) ->
  (String.length password < 6)%nat ->
  exists issues,
    too_small ["password"] 6 "Password must be at least 6 characters" ∈ issues
    /\ appRouter.createUser (JsObject props) w = (Rejected (ValidationError issues), w)
    /\ forall (O : Type) (resolver : CreateUserInput.t -> Async O),
         procedure createUserInputSchema resolver (JsObject props) w
         = (Rejected (ValidationError issues), w).
Proof.
  intros Hp Hlen.
  assert (exists issues,
            too_small ["password"] 6 "Password must be at least 6 characters" ∈ issues
            /\ createUserInputSchema (JsObject props) = inl issues) as (issues & Hin & Hs).
  { unfold createUserInputSchema, z_object2.
    rewrite (property_lookup _ _ _ Hp), (z_string_min_short 6) by exact Hlen.
    destruct (z_string_min 1 _ _ _) as [l|u]; eexists; (split; [|reflexivity]); cbn.
    - apply elem_of_app. right. apply list_elem_of_singleton. reflexivity.
    - apply list_elem_of_singleton. reflexivity. }
  exists issues. split; [exact Hin|]. split.
  - apply procedure_rejects. exact Hs.
  - intros O resolver. apply procedure_rejects. exact Hs.
Qed.

Lemma createUser_short_password_rejected_witness :
  exists issues,
    too_small ["password"] 6 "Password must be at least 6 characters" ∈ issues
    /\ appRouter.createUser
         (JsObject (<["username" := JsString "bob"]> (<["password" := JsString "12345"]> ∅)))
         sample_world
       = (Rejected (ValidationError issues), sample_world)
    /\ forall (O : Type) (resolver : CreateUserInput.t -> Async O),
         procedure createUserInputSchema resolver
           (JsObject (<["username" := JsString "bob"]> (<["password" := JsString "12345"]> ∅)))
           sample_world
         = (Rejected (ValidationError issues), sample_world).
Proof.
  apply (createUser_short_password_rejected
           (<["username" := JsString "bob"]> (<["password" := JsString "12345"]> ∅))
           "12345" sample_world).
  - vm_compute. reflexivity.
  - simpl. lia.
Defined.

(** C7. A call of login in which the username or the password is the empty
    string is rejected with a ValidationError (with any resolver in the
    handler's place, the world unchanged); a call in which both are
    non-empty strings passes and the handler runs on the two strings. *)
Theorem login_validation (props : gmap string JsValue) (w : World) :
  (props !! "username" = Some (JsString "") \/ props !! "password" = Some (JsString "") ->
   exists issues,
     issues <> []
     /\ appRouter.login (JsObject props) w = (Rejected (ValidationError issues), w)
     /\ forall (O : Type) (resolver : LoginInput.t -> Async O),
          procedure loginInputSchema resolver (JsObject props) w
          = (Rejected (ValidationError issues), w))
  /\ (forall username password : string,
        props !! "username" = Some (JsString username) ->
        props !! "password" = Some (JsString password) ->
        username <> "" -> password <> "" ->
        loginInputSchema (JsObject props) = inr (LoginInput.mk username password)
        /\ appRouter.login (JsObject props) w
           = login (LoginInput.mk username password) w).
Proof.
  split.
  - intros Hempty.
    assert (exists issues,
              issues <> [] /\ loginInputSchema (JsObject props) = inl issues)
      as (issues & Hne & Hs).
    { unfold loginInputSchema, z_object2.
      destruct Hempty as [Hu|Hp].
      - rewrite (property_lookup _ _ _ Hu).
        rewrite (z_string_min_short 1 _ _ "") by (cbn; lia).
        destruct (z_string_min 1 _ ["password"] _) as [l|p];
          eexists; (split; [|reflexivity]); cbn; discriminate.
      - rewrite (property_lookup _ _ _ Hp).
        rewrite (z_string_min_short 1 _ ["password"] "") by (cbn; lia).
        destruct (z_string_min 1 _ ["username"] _) as [l|u];
          eexists; (split; [|reflexivity]); cbn.
        + intros H. apply app_eq_nil in H. destruct H as [_ H]. discriminate H.
        + discriminate. }
    exists issues. split; [exact Hne|]. split.
    + apply procedure_rejects. exact Hs.
    + intros O resolver. apply procedure_rejects. exact Hs.
  - intros username password Hu Hp Hune Hpne.
    assert (loginInputSchema (JsObject props) = inr (LoginInput.mk username password)) as Hs.
    { unfold loginInputSchema, z_object2.
      rewrite (property_lookup _ _ _ Hu), (property_lookup _ _ _ Hp).
      rewrite !z_string_min_long by (apply nonempty_length; assumption).
      reflexivity. }
    split; [exact Hs|]. apply procedure_accepts. exact Hs.
Qed.

Lemma login_validation_witness :
  (exists issues,
     issues <> []
     /\ appRouter.login
          (JsObject (<["username" := JsString ""]> (<["password" := JsString "demo123"]> ∅)))
          sample_world
        = (Rejected (ValidationError issues), sample_world))
  /\ appRouter.login
       (JsObject (<["username" := JsString "demo"]> (<["password" := JsString "demo123"]> ∅)))
       sample_world
     = login (LoginInput.mk "demo" "demo123") sample_world.
Proof.
  split.
  - destruct (proj1 (login_validation
                       (<["username" := JsString ""]> (<["password" := JsString "demo123"]> ∅))
                       sample_world)) as (issues & Hne & Hr & _).
    + left. vm_compute. reflexivity.
    + exists issues. split; assumption.
  - apply (proj2 (login_validation
                    (<["username" := JsString "demo"]> (<["password" := JsString "demo123"]> ∅))
                    sample_world) "demo" "demo123").
    + vm_compute. reflexivity.
    + vm_compute. reflexivity.
    + discriminate.
    + discriminate.
Defined.

(** ** Math.floor(Math.random() * 1000) on binary64 *)

Lemma digits2_pos_lower (m : positive) : 2 ^ (Zpos (digits2_pos m) - 1) <= Zpos m.
Proof.
  induction m as [m IH|m IH|]; cbn [digits2_pos].
  - rewrite Pos2Z.inj_succ. replace (Z.succ (Zpos (digits2_pos m)) - 1)
      with (Z.succ (Zpos (digits2_pos m) - 1)) by lia.
    rewrite Z.pow_succ_r by lia. lia.
  - rewrite Pos2Z.inj_succ. replace (Z.succ (Zpos (digits2_pos m)) - 1)
      with (Z.succ (Zpos (digits2_pos m) - 1)) by lia.
    rewrite Z.pow_succ_r by lia. lia.
  - cbn. lia.
Qed.

Lemma digits2_pos_upper (m : positive) : Zpos m < 2 ^ Zpos (digits2_pos m).
Proof.
  induction m as [m IH|m IH|]; cbn [digits2_pos].
  - rewrite Pos2Z.inj_succ, Z.pow_succ_r by lia. lia.
  - rewrite Pos2Z.inj_succ, Z.pow_succ_r by lia. lia.
  - cbn. lia.
Qed.

Lemma shifted_start (M : Z) : 0 <= M -> shifted M 0 (Build_shr_record M false false).
Proof.
  intros H. split; [exact H|]. exists 0. cbn [shr_m shr_r].
  rewrite Z.pow_0_r. repeat split; try lia; try discriminate.
Qed.

Lemma shifted_shr_1 (M k : Z) (r : shr_record) :
  0 <= k -> shifted M k r -> shifted M (k + 1) (shr_1 r).
Proof.
  intros Hk [Hm (rest & HM & Hrest & Hr)]. unfold shifted.
  replace (k + 1) with (Z.succ k) by lia. rewrite Z.pow_succ_r by exact Hk.
  pose proof (Z.pow_pos_nonneg 2 k ltac:(lia) Hk) as Hpow.
  destruct r as [m rb sb]. cbn [shr_m shr_r] in *.
  destruct m as [|[p|p|]|p]; cbn [shr_1 shr_m shr_r]; try lia.
  - split; [lia|]. exists rest. repeat split; try lia; try discriminate.
  - split; [lia|]. exists (2 ^ k + rest). repeat split; lia.
  - split; [lia|]. exists rest. repeat split; try lia; try discriminate.
  - split; [lia|]. exists (2 ^ k + rest). repeat split; lia.
Qed.

Lemma shifted_iter_pos (M : Z) (p : positive) :
  forall (k : Z) (r : shr_record),
    0 <= k -> shifted M k r -> shifted M (k + Zpos p) (SpecFloat.iter_pos shr_1 p r).
Proof.
  induction p as [p IH|p IH|]; intros k r Hk Hs; cbn [SpecFloat.iter_pos].
  - replace (k + Zpos p~1) with (k + 1 + Zpos p + Zpos p) by lia.
    apply IH; [lia|]. apply IH; [lia|]. apply shifted_shr_1; assumption.
  - replace (k + Zpos p~0) with (k + Zpos p + Zpos p) by lia.
    apply IH; [lia|]. apply IH; assumption.
  - apply shifted_shr_1; assumption.
Qed.

(** [shr] on a fresh record: the mantissa is divided by [2 ^ n] (rounded
    down), where [n] is the positive part of the shift. *)
Lemma shr_shifted (M e n : Z) :
  0 <= M ->
  exists r, shr (Build_shr_record M false false) e n = (r, e + Z.max 0 n)
            /\ shifted M (Z.max 0 n) r.
Proof.
  intros HM. destruct n as [|p|p]; cbn [shr].
  - eexists. split; [rewrite Z.add_0_r; reflexivity|]. apply shifted_start, HM.
  - eexists. split; [reflexivity|].
    replace (Z.max 0 (Zpos p)) with (0 + Zpos p) by lia.
    apply shifted_iter_pos; [lia|]. apply shifted_start, HM.
  - eexists. split; [rewrite Z.add_0_r; reflexivity|]. apply shifted_start, HM.
Qed.

Lemma round_nearest_even_bounds (r : shr_record) :
  shr_m r <= round_nearest_even (shr_m r) (loc_of_shr_record r)
          <= shr_m r + (if shr_r r then 1 else 0).
Proof.
  destruct r as [m [|] [|]]; cbn; try destruct (Z.even m); lia.
Qed.

(** Rounding an exact positive mantissa to nearest: the result is zero, or
    finite with mantissa [m] and exponent [E + t], or an infinity, and
    [m * 2 ^ t] exceeds [M] by at most half of [2 ^ n], where [n] is the
    number of bits the format drops. *)
Lemma binary_round_aux_exact (M : positive) (E : Z) :
  exists m t : Z,
    0 <= m /\ 0 <= t
    /\ 2 * (m * 2 ^ t)
       <= 2 * Zpos M + 2 ^ Z.max 0 (fexp prec emax (Zpos (digits2_pos M) + E) - E)
    /\ binary_round_aux prec emax false (Zpos M) E loc_Exact =
       match m with
       | Z0 => S754_zero false
       | Zpos p => if Z.leb (E + t) (emax - prec)
                   then S754_finite false p (E + t) else S754_infinity false
       | Zneg _ => S754_nan
       end.
Proof.
  unfold binary_round_aux, shr_fexp. cbn [shr_record_of_loc Zdigits2].
  set (n := fexp prec emax (Zpos (digits2_pos M) + E) - E).
  destruct (shr_shifted (Zpos M) E n ltac:(lia)) as (r1 & -> & [Hm1 (rest1 & HM & Hrest1 & Hr1)]).
  pose proof (round_nearest_even_bounds r1) as Hround.
  set (m' := round_nearest_even (shr_m r1) (loc_of_shr_record r1)) in *.
  set (n2 := fexp prec emax (Zdigits2 m' + (E + Z.max 0 n)) - (E + Z.max 0 n)).
  destruct (shr_shifted m' (E + Z.max 0 n) n2 ltac:(lia)) as (r2 & -> & [Hm2 (rest2 & HM2 & Hrest2 & _)]).
  exists (shr_m r2), (Z.max 0 n + Z.max 0 n2).
  split; [exact Hm2|]. split; [lia|]. split.
  - rewrite Z.pow_add_r by lia.
    pose proof (Z.pow_pos_nonneg 2 (Z.max 0 n) ltac:(lia) ltac:(lia)) as Hp1.
    pose proof (Z.pow_pos_nonneg 2 (Z.max 0 n2) ltac:(lia) ltac:(lia)) as Hp2.
    assert (shr_m r2 * 2 ^ Z.max 0 n2 <= m') as H2 by lia.
    assert (2 * (m' * 2 ^ Z.max 0 n) <= 2 * Zpos M + 2 ^ Z.max 0 n) as H1.
    { destruct (shr_r r1).
      - specialize (Hr1 eq_refl). nia.
      - nia. }
    nia.
  - rewrite Z.add_assoc. reflexivity.
Qed.

Lemma thousand_eq : thousand = S754_finite false 8796093022208000 (-43).
Proof. reflexivity. Qed.

Lemma one_eq : one = S754_finite false 4503599627370496 (-52).
Proof. reflexivity. Qed.

(** A binary64 number below 1: the exponent is negative and the mantissa is
    below [2 ^ (- e)]; the format bounds the exponent from below. *)
Lemma unit_interval_finite (m : positive) (e : Z) :
  unit_interval (S754_finite false m e) = true ->
  -1074 <= e <= -52 /\ Zpos m < 2 ^ 53 /\ Zpos m < 2 ^ (- e).
Proof.
  unfold unit_interval. rewrite !andb_true_iff. intros [[_ Hb] Hlt].
  unfold bounded, canonical_mantissa, fexp, emin, prec, emax in Hb.
  apply andb_true_iff in Hb. destruct Hb as [Hc _]. apply Z.eqb_eq in Hc.
  pose proof (digits2_pos_upper m) as Hup.
  assert (Zpos (digits2_pos m) <= 53) as Hd by lia.
  assert (Zpos m < 2 ^ 53) as Hm.
  { eapply Z.lt_le_trans; [exact Hup|]. apply Z.pow_le_mono_r; lia. }
  rewrite one_eq in Hlt. unfold SFltb, SFcompare in Hlt.
  destruct (Z.compare_spec e (-52)) as [He|He|He]; try discriminate.
  - subst e. split; [lia|]. split; [exact Hm|].
    rewrite Pos.compare_cont_spec in Hlt.
    destruct (Pos.compare_spec m 4503599627370496) as [H|H|H]; cbn [Pos.switch_Eq] in Hlt; try discriminate.
    change (2 ^ (- -52)) with 4503599627370496. exact H.
  - split; [lia|]. split; [exact Hm|].
    eapply Z.lt_le_trans; [exact Hm|]. apply Z.pow_le_mono_r; lia.
Qed.

Lemma floor_random_range (r : spec_float) :
  unit_interval r = true ->
  floor_is_integer (Number_mul r thousand) = true
  /\ 0 <= Math_floor (Number_mul r thousand) <= 999.
Proof.
  intros Hr. destruct r as [[|]|s|  |[|] m e]; try discriminate.
  - split; [reflexivity|]. change (Math_floor (Number_mul (S754_zero false) thousand)) with 0. lia.
  - destruct (unit_interval_finite m e Hr) as (He & Hm & Hlt).
    rewrite thousand_eq. unfold Number_mul. cbn [SFmul xorb].
    set (c := 8796093022208000%positive).
    destruct (binary_round_aux_exact (m * c) (e + -43)) as (m2 & t & Hm2 & Ht & Hle & ->).
    (* the format drops at most 53 bits of the product *)
    assert (Z.max 0 (fexp prec emax (Zpos (digits2_pos (m * c)) + (e + -43)) - (e + -43)) <= 53) as Hn.
    { pose proof (digits2_pos_lower (m * c)) as Hlow.
      assert (Zpos (m * c) < 2 ^ 106) as Hup.
      { rewrite Pos2Z.inj_mul. change (2 ^ 106) with (2 ^ 53 * 2 ^ 53).
        apply Z.mul_lt_mono_nonneg; lia. }
      assert (Zpos (digits2_pos (m * c)) - 1 < 106) as Hd.
      { apply (Z.pow_lt_mono_r_iff 2); lia. }
      unfold fexp, emin, prec, emax. lia. }
    assert (2 ^ Z.max 0 (fexp prec emax (Zpos (digits2_pos (m * c)) + (e + -43)) - (e + -43))
            <= 2 ^ 53) as Hpow by (apply Z.pow_le_mono_r; lia).
    set (a := - e) in *.
    assert (0 < 2 ^ a) as Ha by (apply Z.pow_pos_nonneg; lia).
    assert (0 < 2 ^ t) as Htpos by (apply Z.pow_pos_nonneg; lia).
    (* the rounded product stays below 1000 *)
    assert (m2 * 2 ^ t < 1000 * 2 ^ (a + 43)) as Hbound.
    { rewrite Z.pow_add_r by lia. change (2 ^ 43) with 8796093022208.
      rewrite Pos2Z.inj_mul in Hle. subst c. change (2 ^ 53) with 9007199254740992 in Hpow.
      nia. }
    destruct m2 as [|p|p]; [split; [reflexivity|cbn [Math_floor]; lia]| |lia].
    assert (e + -43 + t < 10) as Hexp.
    { assert (2 ^ t < 2 ^ (a + 53)) as Hlt2.
      { eapply Z.le_lt_trans; [|eapply Z.lt_le_trans; [exact Hbound|]].
        - nia.
        - replace (a + 53) with (10 + (a + 43)) by lia.
          rewrite (Z.pow_add_r 2 10) by lia. change (2 ^ 10) with 1024.
          assert (0 < 2 ^ (a + 43)) by (apply Z.pow_pos_nonneg; lia). lia. }
      apply Z.pow_lt_mono_r_iff in Hlt2; lia. }
    destruct (Z.leb_spec (e + -43 + t) (emax - prec)) as [_|Hbig];
      [|unfold emax, prec in Hbig; lia].
    split; [reflexivity|]. cbn [Math_floor cond_Zopp].
    destruct (Z.le_gt_cases 0 (e + -43 + t)) as [Hs|Hs].
    + rewrite Z.shiftl_mul_pow2 by exact Hs.
      assert (0 < 2 ^ (e + -43 + t)) by (apply Z.pow_pos_nonneg; lia).
      split; [lia|].
      assert (Zpos p * 2 ^ (e + -43 + t) * 2 ^ (a + 43) < 1000 * 2 ^ (a + 43)) as H1.
      { rewrite <- Z.mul_assoc, <- Z.pow_add_r by lia.
        replace (e + -43 + t + (a + 43)) with t by lia. exact Hbound. }
      assert (0 < 2 ^ (a + 43)) by (apply Z.pow_pos_nonneg; lia).
      apply Z.mul_lt_mono_pos_r in H1; lia.
    + rewrite Z.shiftl_div_pow2 by lia.
      assert (0 < 2 ^ (- (e + -43 + t))) by (apply Z.pow_pos_nonneg; lia).
      split; [apply Z.div_pos; lia|].
      assert (Zpos p / 2 ^ (- (e + -43 + t)) < 1000); [|lia].
      apply Z.div_lt_upper_bound; [lia|].
      replace (a + 43) with (- (e + -43 + t) + t) in Hbound by lia.
      rewrite Z.pow_add_r in Hbound by lia.
      nia.
Qed.

(** ** createUser: the identifier, the password, and what is kept *)

(** X1. Whatever number below 1 Math.random() draws, the product with 1000 is
    a finite number and the id that createUser returns is an integer from 0
    to 999. *)
Theorem createUser_id_range (input : CreateUserInput.t) (w : World) :
  unit_interval (entropy w (draws w)) = true ->
  exists u w',
    createUser input w = (Fulfilled u, w')
    /\ floor_is_integer (Number_mul (entropy w (draws w)) thousand) = true
    /\ 0 <= User.id u <= 999.
Proof.
  intros Hdraw. destruct (createUser_result input w) as [w' E].
  destruct (floor_random_range _ Hdraw) as [Hfinite Hrange].
  eexists; eexists. split; [exact E|]. split; [exact Hfinite|exact Hrange].
Qed.

Lemma createUser_id_range_witness :
  exists u w',
    createUser (CreateUserInput.mk "alice" "secret1")
      {| entropy := fun _ => S754_finite false 9007199254740991 (-53); draws := 0;
         wall_clock := fun _ => 0; readings := 0 |}
    = (Fulfilled u, w')
    /\ floor_is_integer
         (Number_mul (S754_finite false 9007199254740991 (-53)) thousand) = true
    /\ 0 <= User.id u <= 999.
Proof.
  apply (createUser_id_range (CreateUserInput.mk "alice" "secret1")
           {| entropy := fun _ => S754_finite false 9007199254740991 (-53); draws := 0;
              wall_clock := fun _ => 0; readings := 0 |}).
  vm_compute. reflexivity.
Defined.

(** X2. createUser does not look at the password: two inputs with the same
    username get the same outcome, in the same world. *)
Theorem createUser_ignores_password (a b : CreateUserInput.t) (w : World) :
  CreateUserInput.username a = CreateUserInput.username b ->
  createUser a w = createUser b w.
Proof.
  intros H. unfold createUser. rewrite H. reflexivity.
Qed.

Lemma createUser_ignores_password_witness :
  createUser (CreateUserInput.mk "alice" "secret1") sample_world
  = createUser (CreateUserInput.mk "alice" "another-password") sample_world.
Proof.
  apply (createUser_ignores_password
           (CreateUserInput.mk "alice" "secret1")
           (CreateUserInput.mk "alice" "another-password") sample_world).
  reflexivity.
Defined.

(** X3. Nothing is stored: looking up the id that createUser has just
    returned never finds the user that was created. *)
Theorem created_user_not_found (input : CreateUserInput.t) (w : World) :
  exists u found w',
    (u ← createUser input; found ← getUser (User.id u); mret (u, found)) w
    = (Fulfilled (u, found), w')
    /\ found <> Some u.
Proof.
  destruct (createUser_result input w) as [w1 E].
  unfold mbind, Async_bind. rewrite E. cbn [User.id].
  unfold getUser.
  destruct (Z.eqb _ 1).
  - eexists; eexists; eexists. split; [reflexivity|]. discriminate.
  - eexists; eexists; eexists. split; [reflexivity|]. discriminate.
Qed.

(** X4. Creating a user does not let it log in: a login with the credentials
    just given to createUser succeeds only if they are the demo ones. *)
Theorem created_user_cannot_login (username password : string) (w : World) :
  exists r w',
    (_ ← createUser (CreateUserInput.mk username password);
     login (LoginInput.mk username password)) w
    = (Fulfilled r, w')
    /\ (LoginResponse.success r = true <-> (username, password) = ("demo", "demo123")).
Proof.
  destruct (createUser_result (CreateUserInput.mk username password) w) as [w1 E].
  unfold mbind, Async_bind. rewrite E.
  pose proof (demo_credentials (LoginInput.mk username password)) as Hd.
  cbn [LoginInput.username LoginInput.password] in Hd.
  unfold login. cbn [LoginInput.username LoginInput.password].
  destruct (String.eqb username DEMO_USERNAME && String.eqb password DEMO_PASSWORD).
  - eexists; eexists. split; [reflexivity|]. cbn. split; intros _.
    + apply Hd. reflexivity.
    + reflexivity.
  - eexists; eexists. split; [reflexivity|]. cbn. split; intros H.
    + discriminate H.
    + apply Hd in H. discriminate H.
Qed.

(** ** The schemas: what they accept, what they report, what they drop *)

Lemma z_string_min_accepts (minimum : nat) (message : string) (path : list string)
    (data : JsValue) (s : string) :
  z_string_min minimum message path data = inr s
  <-> data = JsString s /\ (minimum <= String.length s)%nat.
Proof.
  unfold z_string_min. split.
  - destruct data; try discriminate.
    destruct (Nat.ltb_spec (String.length s0) minimum); [discriminate|].
    intros [= ->]. split; [reflexivity|assumption].
  - intros [-> H]. destruct (Nat.ltb_spec (String.length s) minimum); [lia|reflexivity].
Qed.

Lemma z_string_min_reports (minimum : nat) (message : string) (path : list string)
    (data : JsValue) (issues : list ZodIssue) :
  z_string_min minimum message path data = inl issues ->
  exists i, issues = [i] /\ issue_path i = path.
Proof.
  unfold z_string_min.
  destruct data; try (intros [= <-]; eexists; split; reflexivity).
  destruct (Nat.ltb (String.length s) minimum); [|discriminate].
  intros [= <-]. eexists. split; reflexivity.
Qed.

Lemma property_is_string (props : gmap string JsValue) (key s : string) :
  property props key = JsString s <-> props !! key = Some (JsString s).
Proof.
  unfold property. destruct (props !! key) as [v|]; cbn; split.
  - intros ->. reflexivity.
  - intros [= ->]. reflexivity.
  - discriminate.
  - discriminate.
Qed.

Lemma property_insert_other (props : gmap string JsValue) (k key : string) (v : JsValue) :
  k <> key -> property (<[k := v]> props) key = property props key.
Proof. intros H. unfold property. rewrite lookup_insert_ne by exact H. reflexivity. Qed.

Lemma z_object2_accepts {A B C : Type} (make : A -> B -> C)
    (k1 : string) (s1 : list string -> JsValue -> Parsed A)
    (k2 : string) (s2 : list string -> JsValue -> Parsed B)
    (data : JsValue) (c : C) :
  z_object2 make k1 s1 k2 s2 data = inr c
  <-> exists props a b,
        data = JsObject props
        /\ s1 [k1] (property props k1) = inr a
        /\ s2 [k2] (property props k2) = inr b
        /\ c = make a b.
Proof.
  unfold z_object2. split.
  - destruct data; try discriminate.
    destruct (s1 [k1] (property props k1)) as [i1|a] eqn:E1; [discriminate|].
    destruct (s2 [k2] (property props k2)) as [i2|b] eqn:E2; [discriminate|].
    intros [= <-]. exists props, a, b. auto.
  - intros (props & a & b & -> & H1 & H2 & ->). rewrite H1, H2. reflexivity.
Qed.

Lemma loginInputSchema_spec (data : JsValue) (input : LoginInput.t) :
  loginInputSchema data = inr input
  <-> exists props,
        data = JsObject props
        /\ props !! "username" = Some (JsString (LoginInput.username input))
        /\ props !! "password" = Some (JsString (LoginInput.password input))
        /\ LoginInput.username input <> ""
        /\ LoginInput.password input <> "".
Proof.
  unfold loginInputSchema. rewrite z_object2_accepts. split.
  - intros (props & u & p & -> & Hu & Hp & ->).
    apply z_string_min_accepts in Hu, Hp. destruct Hu as [Hu Hul], Hp as [Hp Hpl].
    exists props. cbn. rewrite <- !property_is_string, !nonempty_length. auto.
  - intros (props & -> & Hu & Hp & Hun & Hpn). destruct input as [u p]. cbn in *.
    exists props, u, p. rewrite !z_string_min_accepts, !property_is_string.
    rewrite nonempty_length in Hun, Hpn. auto.
Qed.

Lemma createUserInputSchema_spec (data : JsValue) (input : CreateUserInput.t) :
  createUserInputSchema data = inr input
  <-> exists props,
        data = JsObject props
        /\ props !! "username" = Some (JsString (CreateUserInput.username input))
        /\ props !! "password" = Some (JsString (CreateUserInput.password input))
        /\ (1 <= String.length (CreateUserInput.username input))%nat
        /\ (6 <= String.length (CreateUserInput.password input))%nat.
Proof.
  unfold createUserInputSchema. rewrite z_object2_accepts. split.
  - intros (props & u & p & -> & Hu & Hp & ->).
    apply z_string_min_accepts in Hu, Hp. destruct Hu as [Hu Hul], Hp as [Hp Hpl].
    exists props. cbn. rewrite <- !property_is_string. auto.
  - intros (props & -> & Hu & Hp & Hun & Hpn). destruct input as [u p]. cbn in *.
    exists props, u, p. rewrite !z_string_min_accepts, !property_is_string. auto.
Qed.

(** X5. loginInputSchema accepts exactly the objects whose username and
    password properties are non-empty strings, and hands on those two
    strings: the login handler never receives an empty one. *)
Theorem loginInputSchema_accepts_iff (data : JsValue) (input : LoginInput.t) :
  loginInputSchema data = inr input
  <-> exists props,
        data = JsObject props
        /\ props !! "username" = Some (JsString (LoginInput.username input))
        /\ props !! "password" = Some (JsString (LoginInput.password input))
        /\ LoginInput.username input <> ""
        /\ LoginInput.password input <> "".
Proof. apply loginInputSchema_spec. Qed.

(** X6. createUserInputSchema accepts exactly the objects whose username is a
    non-empty string and whose password is a string of at least 6
    characters: the createUser handler never receives anything else. *)
Theorem createUserInputSchema_accepts_iff (data : JsValue) (input : CreateUserInput.t) :
  createUserInputSchema data = inr input
  <-> exists props,
        data = JsObject props
        /\ props !! "username" = Some (JsString (CreateUserInput.username input))
        /\ props !! "password" = Some (JsString (CreateUserInput.password input))
        /\ (1 <= String.length (CreateUserInput.username input))%nat
        /\ (6 <= String.length (CreateUserInput.password input))%nat.
Proof. apply createUserInputSchema_spec. Qed.

(** X7. Properties outside the shape are dropped: setting any property other
    than username and password changes the result of neither schema. *)
Theorem schemas_strip_unknown_keys (props : gmap string JsValue) (k : string) (v : JsValue) :
  k <> "username" -> k <> "password" ->
  loginInputSchema (JsObject (<[k := v]> props)) = loginInputSchema (JsObject props)
  /\ createUserInputSchema (JsObject (<[k := v]> props))
     = createUserInputSchema (JsObject props).
Proof.
  intros Hu Hp. unfold loginInputSchema, createUserInputSchema, z_object2.
  rewrite !property_insert_other by assumption. split; reflexivity.
Qed.

Lemma schemas_strip_unknown_keys_witness :
  loginInputSchema
    (JsObject (<["isAdmin" := JsBoolean true]>
                 (<["username" := JsString "demo"]> (<["password" := JsString "demo123"]> ∅))))
  = loginInputSchema
      (JsObject (<["username" := JsString "demo"]> (<["password" := JsString "demo123"]> ∅)))
  /\ createUserInputSchema
       (JsObject (<["isAdmin" := JsBoolean true]>
                    (<["username" := JsString "demo"]> (<["password" := JsString "demo123"]> ∅))))
     = createUserInputSchema
         (JsObject (<["username" := JsString "demo"]> (<["password" := JsString "demo123"]> ∅))).
Proof.
  apply (schemas_strip_unknown_keys
           (<["username" := JsString "demo"]> (<["password" := JsString "demo123"]> ∅))
           "isAdmin" (JsBoolean true)); discriminate.
Defined.

Lemma z_object2_reports {C : Type} (make : string -> string -> C)
    (k1 k2 : string) (min1 min2 : nat) (msg1 msg2 : string)
    (data : JsValue) (issues : list ZodIssue) :
  z_object2 make k1 (z_string_min min1 msg1) k2 (z_string_min min2 msg2) data = inl issues ->
  (1 <= length issues <= 2)%nat
  /\ Forall (fun i => issue_path i = [] \/ issue_path i = [k1] \/ issue_path i = [k2]) issues
  /\ ((exists i, i ∈ issues /\ issue_path i = []) <-> getParsedType data <> t_object).
Proof.
  unfold z_object2.
  assert (forall t, [invalid_type [] t_object t] = issues -> t <> t_object ->
            (1 <= length issues <= 2)%nat
            /\ Forall (fun i => issue_path i = [] \/ issue_path i = [k1] \/ issue_path i = [k2]) issues
            /\ ((exists i, i ∈ issues /\ issue_path i = []) <-> t <> t_object)) as Hroot.
  { intros t <- Ht. cbn. split; [lia|]. split.
    - constructor; [left; reflexivity|constructor].
    - split; [intros _; exact Ht|].
      intros _. eexists. split; [apply list_elem_of_singleton; reflexivity|reflexivity]. }
  destruct data; cbn [getParsedType];
    try (intros [= H]; apply Hroot; [exact H|discriminate]).
  clear Hroot.
  destruct (z_string_min min1 msg1 [k1] (property props k1)) as [i1|a] eqn:E1;
    destruct (z_string_min min2 msg2 [k2] (property props k2)) as [i2|b] eqn:E2;
    try discriminate; intros [= <-]; cbn [issues_of].
  - apply z_string_min_reports in E1, E2.
    destruct E1 as (x & -> & Hx), E2 as (y & -> & Hy). cbn. split; [lia|]. split.
    + rewrite ?Forall_cons. repeat split; auto using Forall_nil.
    + split; [|intros H; contradiction].
      intros (i & Hi & Hp). exfalso.
      apply elem_of_cons in Hi. destruct Hi as [->|Hi]; [congruence|].
      apply list_elem_of_singleton in Hi. subst i. congruence.
  - apply z_string_min_reports in E1. destruct E1 as (x & -> & Hx).
    cbn. split; [lia|]. split.
    + rewrite ?Forall_cons. repeat split; auto using Forall_nil.
    + split; [|intros H; contradiction].
      intros (i & Hi & Hp). exfalso.
      apply list_elem_of_singleton in Hi. subst i. congruence.
  - apply z_string_min_reports in E2. destruct E2 as (y & -> & Hy).
    cbn. split; [lia|]. split.
    + rewrite ?Forall_cons. repeat split; auto using Forall_nil.
    + split; [|intros H; contradiction].
      intros (i & Hi & Hp). exfalso.
      apply list_elem_of_singleton in Hi. subst i. congruence.
Qed.

(** X8. What a rejection reports: one or two issues, each located at the
    username, at the password, or at the input as a whole; the latter exactly
    when the input is not an object. *)
Theorem schemas_report (data : JsValue) (issues : list ZodIssue) :
  loginInputSchema data = inl issues \/ createUserInputSchema data = inl issues ->
  (1 <= length issues <= 2)%nat
  /\ Forall (fun i => issue_path i = []
                      \/ issue_path i = ["username"]
                      \/ issue_path i = ["password"]) issues
  /\ ((exists i, i ∈ issues /\ issue_path i = []) <-> getParsedType data <> t_object).
Proof.
  intros [H|H]; eapply z_object2_reports; exact H.
Qed.

Lemma schemas_report_witness :
  (1 <= length [too_small ["username"] 1 "Username is required";
                invalid_type ["password"] t_string t_undefined] <= 2)%nat
  /\ Forall (fun i => issue_path i = []
                      \/ issue_path i = ["username"]
                      \/ issue_path i = ["password"])
       [too_small ["username"] 1 "Username is required";
        invalid_type ["password"] t_string t_undefined]
  /\ ((exists i,
         i ∈ [too_small ["username"] 1 "Username is required";
              invalid_type ["password"] t_string t_undefined]
         /\ issue_path i = [])
      <-> getParsedType (JsObject (<["username" := JsString ""]> ∅)) <> t_object).
Proof.
  apply (schemas_report (JsObject (<["username" := JsString ""]> ∅))).
  left. vm_compute. reflexivity.
Defined.

(** ** The procedures of the router *)

(** X9. The login procedure answers success only to a call that carries
    exactly the demo credentials, whatever else the call is made of, and it
    never changes the world. *)
Theorem login_procedure_success_iff (data : JsValue) (w : World) :
  exists out,
    appRouter.login data w = (out, w)
    /\ ((exists r, out = Fulfilled r /\ LoginResponse.success r = true)
        <-> exists props,
              data = JsObject props
              /\ props !! "username" = Some (JsString "demo")
              /\ props !! "password" = Some (JsString "demo123")).
Proof.
  unfold appRouter.login, procedure.
  destruct (loginInputSchema data) as [issues|input] eqn:Hs.
  - eexists. split; [reflexivity|]. split.
    + intros (r & Hr & _). discriminate Hr.
    + intros (props & -> & Hu & Hp). exfalso.
      assert (loginInputSchema (JsObject props) = inr (LoginInput.mk "demo" "demo123")) as H.
      { apply loginInputSchema_spec. exists props. cbn. repeat split; auto; discriminate. }
      congruence.
  - apply loginInputSchema_spec in Hs.
    destruct Hs as (props & -> & Hu & Hp & _ & _).
    pose proof (demo_credentials input) as Hd. unfold login.
    destruct (String.eqb (LoginInput.username input) DEMO_USERNAME
                && String.eqb (LoginInput.password input) DEMO_PASSWORD).
    + eexists. split; [reflexivity|]. split.
      * intros _. exists props. split; [reflexivity|].
        destruct Hd as [Hd _]. specialize (Hd eq_refl). injection Hd as <- <-. auto.
      * intros _. eexists. split; reflexivity.
    + eexists. split; [reflexivity|]. split.
      * intros (r & [= <-] & Hr). discriminate Hr.
      * intros (props' & [= <-] & Hu' & Hp'). exfalso.
        rewrite Hu in Hu'. rewrite Hp in Hp'.
        injection Hu' as Hu'. injection Hp' as Hp'.
        destruct Hd as [_ Hd]. rewrite Hu', Hp' in Hd. specialize (Hd eq_refl). discriminate Hd.
Qed.

(** X10. The getUser procedure: a call whose userId is a number reaches the
    handler with that number; any other call is rejected with an issue about
    a number that was expected, and leaves the world as it was. *)
Theorem getUser_procedure (data : JsValue) (w : World) :
  (forall props n,
      data = JsObject props -> props !! "userId" = Some (JsNumber n) ->
      appRouter.getUser data w = getUser n w)
  /\ ((forall props n, data = JsObject props -> props !! "userId" <> Some (JsNumber n)) ->
      exists i,
        appRouter.getUser data w = (Rejected (ValidationError [i]), w)
        /\ ((issue_path i = [] /\ getParsedType data <> t_object)
            \/ (issue_path i = ["userId"] /\ getParsedType data = t_object))).
Proof.
  unfold appRouter.getUser, procedure, z_object1. split.
  - intros props n -> H. rewrite (property_lookup _ _ _ H). reflexivity.
  - intros Hnot.
    destruct data; try (eexists; split; [reflexivity|]; left; split; [reflexivity|discriminate]).
    unfold property.
    destruct (props !! "userId") as [v|] eqn:E; cbn [default];
      [destruct v|]; try (eexists; split; [reflexivity|]; right; split; reflexivity).
    exfalso. exact (Hnot props n eq_refl E).
Qed.

Lemma getUser_procedure_witness :
  appRouter.getUser (JsObject (<["userId" := JsNumber 7]> ∅)) sample_world
  = getUser 7 sample_world
  /\ exists i,
       appRouter.getUser (JsObject (<["userId" := JsString "7"]> ∅)) sample_world
       = (Rejected (ValidationError [i]), sample_world)
       /\ ((issue_path i = []
            /\ getParsedType (JsObject (<["userId" := JsString "7"]> ∅)) <> t_object)
           \/ (issue_path i = ["userId"]
               /\ getParsedType (JsObject (<["userId" := JsString "7"]> ∅)) = t_object)).
Proof.
  split.
  - apply (proj1 (getUser_procedure (JsObject (<["userId" := JsNumber 7]> ∅)) sample_world)
             (<["userId" := JsNumber 7]> ∅) 7).
    + reflexivity.
    + vm_compute. reflexivity.
  - apply (proj2 (getUser_procedure (JsObject (<["userId" := JsString "7"]> ∅)) sample_world)).
    intros props n [= <-]. vm_compute. discriminate.
Defined.

(** X11. The createUser procedure, end to end: a call with a non-empty
    username and a password of at least 6 characters, at a draw below 1,
    settles to a User with that username, an id from 0 to 999 and the time of
    the call; it makes one draw and one reading of the clock. *)
Theorem createUser_procedure (props : gmap string JsValue) (username password : string)
    (w : World) :
  props !! "username" = Some (JsString username) ->
  props !! "password" = Some (JsString password) ->
  (1 <= String.length username)%nat ->
  (6 <= String.length password)%nat ->
  unit_interval (entropy w (draws w)) = true ->
  exists u w',
    appRouter.createUser (JsObject props) w = (Fulfilled u, w')
    /\ User.username u = username
    /\ 0 <= User.id u <= 999
    /\ User.created_at u = wall_clock w (readings w)
    /\ draws w' = S (draws w)
    /\ readings w' = S (readings w)
    /\ entropy w' = entropy w
    /\ wall_clock w' = wall_clock w.
Proof.
  intros Hu Hp Hul Hpl Hdraw.
  assert (createUserInputSchema (JsObject props)
          = inr (CreateUserInput.mk username password)) as Hs.
  { apply createUserInputSchema_spec. exists props. cbn. auto. }
  unfold appRouter.createUser. rewrite (procedure_accepts _ _ _ _ _ Hs).
  destruct (floor_random_range _ Hdraw) as [_ Hrange].
  eexists; eexists. split; [reflexivity|]. cbn.
  repeat split; try reflexivity; apply Hrange.
Qed.

Lemma createUser_procedure_witness :
  exists u w',
    appRouter.createUser
      (JsObject (<["username" := JsString "bob"]> (<["password" := JsString "123456"]> ∅)))
      sample_world
    = (Fulfilled u, w')
    /\ User.username u = "bob"
    /\ 0 <= User.id u <= 999
    /\ User.created_at u = wall_clock sample_world (readings sample_world)
    /\ draws w' = S (draws sample_world)
    /\ readings w' = S (readings sample_world)
    /\ entropy w' = entropy sample_world
    /\ wall_clock w' = wall_clock sample_world.
Proof.
  apply (createUser_procedure
           (<["username" := JsString "bob"]> (<["password" := JsString "123456"]> ∅))
           "bob" "123456" sample_world).
  - vm_compute. reflexivity.
  - vm_compute. reflexivity.
  - simpl. lia.
  - simpl. lia.
  - reflexivity.
Defined.

(** ** Dates: the calendar and the text of a timestamp *)

Lemma DayFromYear_step (y : Z) : DayFromYear (y + 1) = DayFromYear y + DaysInYear y.
Proof.
  unfold DayFromYear, DaysInYear.
  destruct (Z.eqb_spec (y mod 4) 0), (Z.eqb_spec (y mod 100) 0), (Z.eqb_spec (y mod 400) 0);
    cbn [negb]; (Z.div_mod_to_equations; lia).
Qed.

Lemma DaysInYear_range (y : Z) : 365 <= DaysInYear y <= 366.
Proof. unfold DaysInYear. repeat destruct (negb _); lia. Qed.

Lemma YearFromDay_bounds (t : Z) :
  DayFromYear (YearFromTime t) <= Day t < DayFromYear (YearFromTime t + 1).
Proof.
  unfold YearFromTime. cbv zeta.
  set (d := Day t). set (y := 1970 + d * 400 / 146097).
  destruct (Z.leb_spec (DayFromYear (y + 1)) d) as [H1|H1];
    [|destruct (Z.leb_spec (DayFromYear y) d) as [H2|H2]].
  - split; [exact H1|]. subst y. unfold DayFromYear in *. (Z.div_mod_to_equations; lia).
  - split; assumption.
  - split; [|replace (y - 1 + 1) with y by lia; exact H2].
    subst y. unfold DayFromYear in *. (Z.div_mod_to_equations; lia).
Qed.

(** *** Text order *)

Lemma compare_append (a b s s' : string) :
  String.length a = String.length b ->
  String.compare (a +:+ s) (b +:+ s')
  = match String.compare a b with Eq => String.compare s s' | c => c end.
Proof.
  revert b. induction a as [|x a IH]; intros [|y b] H; cbn in *; try discriminate H.
  - reflexivity.
  - injection H as H.
    change (String x a +:+ s) with (String x (a +:+ s)).
    change (String y b +:+ s') with (String y (b +:+ s')).
    cbn [String.compare]. destruct (Ascii.compare x y); auto.
Qed.

Lemma append_length (a b : string) :
  String.length (a +:+ b) = (String.length a + String.length b)%nat.
Proof.
  induction a as [|x a IH]; [reflexivity|].
  change (String x a +:+ b) with (String x (a +:+ b)). cbn [String.length].
  rewrite IH. reflexivity.
Qed.

Lemma padded_length (w : nat) (n : Z) : String.length (padded w n) = w.
Proof.
  revert n. induction w as [|w IH]; intros n; cbn [padded].
  - reflexivity.
  - rewrite append_length, IH. cbn. lia.
Qed.

Lemma digit_compare (a b : Z) :
  Ascii.compare (digit a) (digit b) = Z.compare (a mod 10) (b mod 10).
Proof.
  unfold Ascii.compare, digit.
  pose proof (Z.mod_pos_bound a 10 ltac:(lia)) as Ha.
  pose proof (Z.mod_pos_bound b 10 ltac:(lia)) as Hb.
  rewrite !N_ascii_embedding by lia.
  destruct (Z.compare_spec (a mod 10) (b mod 10)) as [H|H|H].
  - apply N.compare_eq_iff. lia.
  - apply N.compare_lt_iff. lia.
  - apply N.compare_gt_iff. lia.
Qed.

Lemma padded_compare (w : nat) (a b : Z) :
  0 <= a < 10 ^ Z.of_nat w -> 0 <= b < 10 ^ Z.of_nat w ->
  String.compare (padded w a) (padded w b) = Z.compare a b.
Proof.
  revert a b. induction w as [|w IH]; intros a b Ha Hb.
  - cbn in *. assert (a = 0) by lia. assert (b = 0) by lia. subst. reflexivity.
  - rewrite Nat2Z.inj_succ, Z.pow_succ_r in Ha, Hb by lia.
    cbn [padded]. rewrite compare_append by (rewrite !padded_length; reflexivity).
    rewrite IH by (Z.div_mod_to_equations; lia).
    cbn [String.compare]. rewrite digit_compare.
    destruct (Z.compare_spec (a / 10) (b / 10)) as [H|H|H];
      destruct (Z.compare_spec (a mod 10) (b mod 10)) as [H'|H'|H'];
      symmetry;
      first [apply Z.compare_eq_iff | apply Z.compare_lt_iff | apply Z.compare_gt_iff];
      Z.div_mod_to_equations; lia.
Qed.

(** *** Years, months and days *)

Lemma DayFromYear_lt (y1 y2 : Z) : y1 < y2 -> DayFromYear y1 < DayFromYear y2.
Proof. intros H. unfold DayFromYear. Z.div_mod_to_equations. lia. Qed.

Lemma Day_mono (t1 t2 : Z) : t1 <= t2 -> Day t1 <= Day t2.
Proof. intros H. unfold Day, msPerDay. Z.div_mod_to_equations. lia. Qed.

Lemma YearFromTime_largest (t y : Z) :
  TimeFromYear (YearFromTime t) <= t
  /\ (TimeFromYear y <= t -> y <= YearFromTime t).
Proof.
  pose proof (YearFromDay_bounds t) as [Hlo Hhi].
  unfold TimeFromYear. unfold Day, msPerDay in *. split.
  - Z.div_mod_to_equations. lia.
  - intros Hy. destruct (Z.le_gt_cases y (YearFromTime t)) as [H|H]; [exact H|exfalso].
    assert (DayFromYear (YearFromTime t + 1) <= DayFromYear y) as Hm.
    { destruct (Z.eq_dec (YearFromTime t + 1) y) as [<-|Hne]; [lia|].
      apply Z.lt_le_incl, DayFromYear_lt. lia. }
    Z.div_mod_to_equations. lia.
Qed.

Lemma YearFromTime_mono (t1 t2 : Z) : t1 <= t2 -> YearFromTime t1 <= YearFromTime t2.
Proof.
  intros H. apply (YearFromTime_largest t2).
  pose proof (proj1 (YearFromTime_largest t1 0)). lia.
Qed.

Lemma InLeapYear_days (t : Z) : DaysInYear (YearFromTime t) = 365 + InLeapYear t.
Proof.
  unfold InLeapYear. pose proof (DaysInYear_range (YearFromTime t)).
  destruct (Z.eqb_spec (DaysInYear (YearFromTime t)) 365); lia.
Qed.

Lemma DayWithinYear_range (t : Z) :
  0 <= DayWithinYear t < 365 + InLeapYear t /\ 0 <= InLeapYear t <= 1.
Proof.
  pose proof (YearFromDay_bounds t) as [Hlo Hhi].
  pose proof (InLeapYear_days t). pose proof (DaysInYear_range (YearFromTime t)).
  rewrite DayFromYear_step in Hhi. unfold DayWithinYear. lia.
Qed.

Lemma MonthFromTime_range (t : Z) : 0 <= MonthFromTime t <= 11.
Proof.
  unfold MonthFromTime. cbv zeta.
  repeat match goal with
         | |- context [Z.ltb ?a ?b] => destruct (Z.ltb a b)
         end; lia.
Qed.

Lemma DateFromTime_range (t : Z) : 1 <= DateFromTime t <= 31.
Proof.
  pose proof (DayWithinYear_range t) as [Hd Hl].
  unfold DateFromTime, MonthFromTime. cbv zeta.
  repeat match goal with
         | |- context [Z.ltb ?a ?b] => destruct (Z.ltb_spec a b)
         end; lia.
Qed.

Lemma MonthFromTime_mono (t1 t2 : Z) :
  t1 <= t2 -> YearFromTime t1 = YearFromTime t2 ->
  MonthFromTime t1 <= MonthFromTime t2.
Proof.
  intros Ht Hy. apply Day_mono in Ht.
  unfold MonthFromTime, InLeapYear, DayWithinYear. cbv zeta. rewrite Hy.
  set (l := if Z.eqb (DaysInYear (YearFromTime t2)) 365 then 0 else 1).
  set (b := DayFromYear (YearFromTime t2)).
  repeat match goal with
         | |- context [Z.ltb ?a ?b] => destruct (Z.ltb_spec a b)
         end; lia.
Qed.

Lemma DateFromTime_offset :
  exists off : Z -> Z -> Z,
    forall t', DateFromTime t' = DayWithinYear t' - off (MonthFromTime t') (InLeapYear t').
Proof.
  exists (fun m l =>
            match m with
            | 0 => -1 | 1 => 30 | 2 => 58 + l | 3 => 89 + l | 4 => 119 + l
            | 5 => 150 + l | 6 => 180 + l | 7 => 211 + l | 8 => 242 + l
            | 9 => 272 + l | 10 => 303 + l | _ => 333 + l
            end).
  intros t'. unfold DateFromTime. cbv zeta.
  pose proof (MonthFromTime_range t') as Hm.
  assert (MonthFromTime t' = 0 \/ MonthFromTime t' = 1 \/ MonthFromTime t' = 2
          \/ MonthFromTime t' = 3 \/ MonthFromTime t' = 4 \/ MonthFromTime t' = 5
          \/ MonthFromTime t' = 6 \/ MonthFromTime t' = 7 \/ MonthFromTime t' = 8
          \/ MonthFromTime t' = 9 \/ MonthFromTime t' = 10 \/ MonthFromTime t' = 11)
    as Hcases by lia.
  repeat destruct Hcases as [Hc|Hcases]; try rewrite Hc; try rewrite Hcases; lia.
Qed.

Lemma DateFromTime_mono (t1 t2 : Z) :
  t1 <= t2 -> YearFromTime t1 = YearFromTime t2 -> MonthFromTime t1 = MonthFromTime t2 ->
  DateFromTime t1 <= DateFromTime t2
  /\ (DateFromTime t1 = DateFromTime t2 -> Day t1 = Day t2).
Proof.
  intros Ht Hy Hm. apply Day_mono in Ht.
  destruct DateFromTime_offset as [off Hoff].
  rewrite (Hoff t1), (Hoff t2), Hm.
  unfold InLeapYear, DayWithinYear. rewrite Hy. lia.
Qed.

(** *** The time of day *)

Lemma HourFromTime_mono (t1 t2 : Z) :
  t1 <= t2 -> Day t1 = Day t2 -> HourFromTime t1 <= HourFromTime t2.
Proof.
  unfold Day, HourFromTime, msPerDay, msPerHour. intros. Z.div_mod_to_equations. lia.
Qed.

Lemma MinFromTime_mono (t1 t2 : Z) :
  t1 <= t2 -> Day t1 = Day t2 -> HourFromTime t1 = HourFromTime t2 ->
  MinFromTime t1 <= MinFromTime t2.
Proof.
  unfold Day, HourFromTime, MinFromTime, msPerDay, msPerHour, msPerMinute.
  intros. Z.div_mod_to_equations. lia.
Qed.

Lemma SecFromTime_mono (t1 t2 : Z) :
  t1 <= t2 -> Day t1 = Day t2 -> HourFromTime t1 = HourFromTime t2 ->
  MinFromTime t1 = MinFromTime t2 ->
  SecFromTime t1 <= SecFromTime t2.
Proof.
  unfold Day, HourFromTime, MinFromTime, SecFromTime, msPerDay, msPerHour, msPerMinute, msPerSecond.
  intros. Z.div_mod_to_equations. lia.
Qed.

Lemma msFromTime_lt (t1 t2 : Z) :
  t1 < t2 -> Day t1 = Day t2 -> HourFromTime t1 = HourFromTime t2 ->
  MinFromTime t1 = MinFromTime t2 -> SecFromTime t1 = SecFromTime t2 ->
  msFromTime t1 < msFromTime t2.
Proof.
  unfold Day, HourFromTime, MinFromTime, SecFromTime, msFromTime,
    msPerDay, msPerHour, msPerMinute, msPerSecond.
  intros. Z.div_mod_to_equations. lia.
Qed.

(** *** The printed fields order as the instants do *)

Lemma lex_compare_refl (l : list Z) : lex_compare l l = Eq.
Proof. induction l as [|x l IH]; cbn; [reflexivity|]. rewrite Z.compare_refl. exact IH. Qed.

Lemma lex_compare_antisym (a b : list Z) :
  lex_compare a b = CompOpp (lex_compare b a).
Proof.
  revert b. induction a as [|x a IH]; intros [|y b]; cbn; try reflexivity.
  rewrite (Z.compare_antisym y x). destruct (Z.compare y x); cbn; auto.
Qed.

Lemma time_fields_lt (t1 t2 : Z) :
  t1 < t2 -> lex_compare (time_fields t1) (time_fields t2) = Lt.
Proof.
  intros Hlt. assert (t1 <= t2) as Hle by lia.
  unfold time_fields. cbn [lex_compare].
  pose proof (YearFromTime_mono t1 t2 Hle) as Hy.
  destruct (Z.compare_spec (YearFromTime t1) (YearFromTime t2)) as [Ey|?|?];
    [|reflexivity|lia].
  pose proof (MonthFromTime_mono t1 t2 Hle Ey) as Hm.
  destruct (Z.compare_spec (MonthFromTime t1 + 1) (MonthFromTime t2 + 1)) as [Em|?|?];
    [|reflexivity|lia].
  assert (MonthFromTime t1 = MonthFromTime t2) as Em' by lia.
  pose proof (DateFromTime_mono t1 t2 Hle Ey Em') as [Hd Hday].
  destruct (Z.compare_spec (DateFromTime t1) (DateFromTime t2)) as [Ed|?|?];
    [|reflexivity|lia].
  specialize (Hday Ed).
  pose proof (HourFromTime_mono t1 t2 Hle Hday) as Hh.
  destruct (Z.compare_spec (HourFromTime t1) (HourFromTime t2)) as [Eh|?|?];
    [|reflexivity|lia].
  pose proof (MinFromTime_mono t1 t2 Hle Hday Eh) as Hmi.
  destruct (Z.compare_spec (MinFromTime t1) (MinFromTime t2)) as [Emi|?|?];
    [|reflexivity|lia].
  pose proof (SecFromTime_mono t1 t2 Hle Hday Eh Emi) as Hs.
  destruct (Z.compare_spec (SecFromTime t1) (SecFromTime t2)) as [Es|?|?];
    [|reflexivity|lia].
  pose proof (msFromTime_lt t1 t2 Hlt Hday Eh Emi Es) as Hms.
  destruct (Z.compare_spec (msFromTime t1) (msFromTime t2)); [lia|reflexivity|lia].
Qed.

Lemma time_fields_compare (t1 t2 : Z) :
  lex_compare (time_fields t1) (time_fields t2) = Z.compare t1 t2.
Proof.
  destruct (Z.compare_spec t1 t2) as [->|H|H].
  - apply lex_compare_refl.
  - apply time_fields_lt. exact H.
  - rewrite lex_compare_antisym, (time_fields_lt t2 t1 H). reflexivity.
Qed.

(** The instants whose year has four digits. *)
Lemma four_digit_year (t : Z) :
  -62167219200000 <= t <= 253402300799999 <-> 0 <= YearFromTime t <= 9999.
Proof.
  assert (TimeFromYear 0 = -62167219200000) as H0 by reflexivity.
  assert (TimeFromYear 10000 = 253402300800000) as H1 by reflexivity.
  pose proof (YearFromTime_largest t 0) as [Hlo Hge0].
  pose proof (YearFromTime_largest t 10000) as [_ Hge1].
  split.
  - intros [Ha Hb]. split; [apply Hge0; lia|].
    destruct (Z.le_gt_cases (YearFromTime t) 9999) as [H|H]; [exact H|exfalso].
    assert (TimeFromYear 10000 <= TimeFromYear (YearFromTime t)); [|lia].
    unfold TimeFromYear, msPerDay.
    destruct (Z.eq_dec 10000 (YearFromTime t)) as [<-|Hne]; [lia|].
    pose proof (DayFromYear_lt 10000 (YearFromTime t) ltac:(lia)). lia.
  - intros [Ha Hb]. split.
    + destruct (Z.eq_dec 0 (YearFromTime t)) as [E|Hne]; [rewrite <- E in Hlo; lia|].
      pose proof (DayFromYear_lt 0 (YearFromTime t) ltac:(lia)).
      unfold TimeFromYear, msPerDay in *. lia.
    + destruct (Z.le_gt_cases 253402300800000 t) as [H|H]; [|lia].
      specialize (Hge1 ltac:(lia)). lia.
Qed.

Lemma compare_refl (s : string) : String.compare s s = Eq.
Proof.
  induction s as [|c s IH]; cbn; [reflexivity|].
  unfold Ascii.compare. rewrite N.compare_refl. exact IH.
Qed.

Ltac compare_field :=
  rewrite compare_append by (rewrite ?padded_length; reflexivity);
  rewrite padded_compare by (cbn; lia).

Ltac compare_separator :=
  rewrite compare_append by reflexivity; rewrite compare_refl.

Lemma toISOString_fields (t1 t2 : Z) :
  0 <= YearFromTime t1 <= 9999 -> 0 <= YearFromTime t2 <= 9999 ->
  String.compare (toISOString t1) (toISOString t2)
  = lex_compare (time_fields t1) (time_fields t2).
Proof.
  intros Hy1 Hy2. unfold toISOString, year_string, time_fields.
  destruct (Z.leb_spec 0 (YearFromTime t1)); [|lia].
  destruct (Z.leb_spec (YearFromTime t1) 9999); [|lia].
  destruct (Z.leb_spec 0 (YearFromTime t2)); [|lia].
  destruct (Z.leb_spec (YearFromTime t2) 9999); [|lia].
  cbn [andb lex_compare].
  pose proof (MonthFromTime_range t1). pose proof (MonthFromTime_range t2).
  pose proof (DateFromTime_range t1). pose proof (DateFromTime_range t2).
  assert (forall t, 0 <= HourFromTime t < 24) as Hh
      by (intros t; apply Z.mod_pos_bound; lia).
  assert (forall t, 0 <= MinFromTime t < 60) as Hmi
      by (intros t; apply Z.mod_pos_bound; lia).
  assert (forall t, 0 <= SecFromTime t < 60) as Hs
      by (intros t; apply Z.mod_pos_bound; lia).
  assert (forall t, 0 <= msFromTime t < 1000) as Hms
      by (intros t; apply Z.mod_pos_bound; reflexivity).
  pose proof (Hh t1). pose proof (Hh t2). pose proof (Hmi t1). pose proof (Hmi t2).
  pose proof (Hs t1). pose proof (Hs t2). pose proof (Hms t1). pose proof (Hms t2).
  compare_field. compare_separator.
  compare_field. compare_separator.
  compare_field. compare_separator.
  compare_field. compare_separator.
  compare_field. compare_separator.
  compare_field. compare_separator.
  compare_field. rewrite compare_refl.
  repeat match goal with
         | |- context [Z.compare ?a ?b] => destruct (Z.compare a b)
         end; reflexivity.
Qed.

Lemma toISOString_compare (t1 t2 : Z) :
  -62167219200000 <= t1 <= 253402300799999 ->
  -62167219200000 <= t2 <= 253402300799999 ->
  String.compare (toISOString t1) (toISOString t2) = Z.compare t1 t2.
Proof.
  intros H1 H2. apply four_digit_year in H1, H2.
  rewrite toISOString_fields by assumption. apply time_fields_compare.
Qed.

(** ** healthcheck and its timestamps *)

Lemma is_digit_digit (n : Z) : is_digit (digit n) = true.
Proof.
  unfold is_digit, digit.
  pose proof (Z.mod_pos_bound n 10 ltac:(lia)) as Hn.
  rewrite N_ascii_embedding by lia.
  apply andb_true_iff. split; apply N.leb_le; lia.
Qed.

Lemma toISOString_pattern (t : Z) :
  0 <= YearFromTime t <= 9999 ->
  matches "dddd-dd-ddTdd:dd:dd.dddZ" (toISOString t) = true.
Proof.
  intros Hy. unfold toISOString, year_string.
  destruct (Z.leb_spec 0 (YearFromTime t)); [|lia].
  destruct (Z.leb_spec (YearFromTime t) 9999); [|lia].
  cbv [andb padded String.append matches Ascii.eqb Bool.eqb].
  rewrite !is_digit_digit. reflexivity.
Qed.

Lemma repeatedly_healthcheck (data : JsValue) (n : nat) :
  forall w : World,
    repeatedly (appRouter.healthcheck data) n w
    = (Fulfilled
         (map (fun i => {| HealthStatus.status := "ok";
                           HealthStatus.timestamp := toISOString (wall_clock w i) |})
              (seq (readings w) n)),
       after_readings w n).
Proof.
  induction n as [|n IH]; intros w.
  - destruct w. unfold after_readings. cbn. rewrite Nat.add_0_r. reflexivity.
  - cbn [repeatedly]. unfold mbind, Async_bind.
    unfold appRouter.healthcheck at 1. unfold mbind, Async_bind, Date_new, mret, Async_ret.
    rewrite IH. unfold after_readings. cbn. rewrite Nat.add_succ_r. reflexivity.
Qed.

Lemma timestamps_non_decreasing (clock : nat -> Z) (n : nat) :
  forall a : nat,
    (forall i, (a <= i < a + n)%nat -> -62167219200000 <= clock i <= 253402300799999) ->
    (forall i, (a <= i)%nat -> (S i < a + n)%nat -> clock i <= clock (S i)) ->
    non_decreasing (map (fun i => toISOString (clock i)) (seq a n)) = true.
Proof.
  induction n as [|n IH]; intros a Hrange Hmono; [reflexivity|].
  destruct n as [|n]; [reflexivity|].
  change (seq a (S (S n))) with (a :: seq (S a) (S n)).
  change (seq (S a) (S n)) with (S a :: seq (S (S a)) n) at 1.
  cbn [map non_decreasing]. apply andb_true_iff. split.
  - unfold String.leb.
    rewrite toISOString_compare by (apply Hrange; lia).
    specialize (Hmono a ltac:(lia) ltac:(lia)).
    destruct (Z.compare_spec (clock a) (clock (S a))); [reflexivity|reflexivity|lia].
  - change (toISOString (clock (S a)) :: map (fun i => toISOString (clock i)) (seq (S (S a)) n))
      with (map (fun i => toISOString (clock i)) (seq (S a) (S n))).
    apply IH.
    + intros i Hi. apply Hrange. lia.
    + intros i Hi Hi'. apply Hmono; lia.
Qed.

(** X12. For instants of the years 0 to 9999, the texts that toISOString
    prints compare, code unit by code unit, exactly as the instants do: an
    earlier instant prints a smaller text, and different instants print
    different texts. *)
Theorem toISOString_order (t1 t2 : Z) :
  -62167219200000 <= t1 <= 253402300799999 ->
  -62167219200000 <= t2 <= 253402300799999 ->
  String.compare (toISOString t1) (toISOString t2) = Z.compare t1 t2.
Proof. apply toISOString_compare. Qed.

Lemma toISOString_order_witness :
  String.compare (toISOString 951782399999) (toISOString 951782400000)
  = Z.compare 951782399999 951782400000.
Proof.
  apply (toISOString_order 951782399999 951782400000); lia.
Defined.

(** X13. For instants of the years 0 to 9999, toISOString prints 24
    characters of the form YYYY-MM-DDTHH:mm:ss.sssZ, digits in every place
    of a field. *)
Theorem toISOString_shape (t : Z) :
  -62167219200000 <= t <= 253402300799999 ->
  matches "dddd-dd-ddTdd:dd:dd.dddZ" (toISOString t) = true
  /\ String.length (toISOString t) = 24%nat.
Proof.
  intros Ht. apply four_digit_year in Ht. split.
  - apply toISOString_pattern. exact Ht.
  - unfold toISOString, year_string.
    destruct (Z.leb_spec 0 (YearFromTime t)); [|lia].
    destruct (Z.leb_spec (YearFromTime t) 9999); [|lia].
    cbn [andb]. rewrite !append_length, !padded_length. reflexivity.
Qed.

Lemma toISOString_shape_witness :
  matches "dddd-dd-ddTdd:dd:dd.dddZ" (toISOString 1700000000000) = true
  /\ String.length (toISOString 1700000000000) = 24%nat.
Proof.
  apply (toISOString_shape 1700000000000). lia.
Defined.

(** X14. Any number of healthcheck calls in a row, whatever they carry, all
    settle with status "ok"; the k-th timestamp is the text of the k-th
    reading of the clock; the run reads the clock once per call and draws no
    random number. *)
Theorem healthcheck_repeated (data : JsValue) (n : nat) (w : World) :
  exists rs w',
    repeatedly (appRouter.healthcheck data) n w = (Fulfilled rs, w')
    /\ length rs = n
    /\ (forall k r,
          rs !! k = Some r ->
          HealthStatus.status r = "ok"
          /\ HealthStatus.timestamp r = toISOString (wall_clock w (readings w + k)))
    /\ readings w' = (readings w + n)%nat
    /\ draws w' = draws w
    /\ entropy w' = entropy w
    /\ wall_clock w' = wall_clock w.
Proof.
  rewrite repeatedly_healthcheck. eexists; eexists. split; [reflexivity|].
  split; [rewrite length_map, length_seq; reflexivity|].
  split; [|repeat split; reflexivity].
  intros k r Hk. rewrite list_lookup_fmap in Hk.
  destruct (seq (readings w) n !! k) as [i|] eqn:Hi; [|discriminate Hk].
  apply lookup_seq in Hi. destruct Hi as [-> _].
  injection Hk as <-. split; reflexivity.
Qed.

(** X15. While the clock does not step back and shows a year from 0 to 9999,
    the timestamps of successive healthcheck calls never decrease as texts. *)
Theorem healthcheck_timestamps_sorted (data : JsValue) (n : nat) (w : World) :
  (forall i, (readings w <= i < readings w + n)%nat ->
             -62167219200000 <= wall_clock w i <= 253402300799999) ->
  (forall i, (readings w <= i)%nat -> (S i < readings w + n)%nat ->
             wall_clock w i <= wall_clock w (S i)) ->
  exists rs w',
    repeatedly (appRouter.healthcheck data) n w = (Fulfilled rs, w')
    /\ non_decreasing (map HealthStatus.timestamp rs) = true.
Proof.
  intros Hrange Hmono. rewrite repeatedly_healthcheck.
  eexists; eexists. split; [reflexivity|].
  rewrite List.map_map. cbn [HealthStatus.timestamp].
  apply timestamps_non_decreasing; assumption.
Qed.

Lemma healthcheck_timestamps_sorted_witness :
  exists rs w',
    repeatedly (appRouter.healthcheck JsUndefined) 3 sample_world = (Fulfilled rs, w')
    /\ non_decreasing (map HealthStatus.timestamp rs) = true.
Proof.
  apply (healthcheck_timestamps_sorted JsUndefined 3 sample_world).
  - intros i Hi. cbn [sample_world wall_clock readings] in *. lia.
  - intros i Hi Hi'. cbn [sample_world wall_clock readings] in *. lia.
Defined.
